(** * CourseGPT: a shallow embedding of the generation pipeline, the query
      service and the viewer's course scan, with the properties checked
      against the specification.

    Source files embedded here:
    - [main.py]           (progress tracker, API client, file utilities, pipeline)
    - [api/main.py]       (timestamp extraction, course listing, frontmatter parser,
                           creation endpoint)
    - [streamlit_app.py]  (course scan and creation path of the viewer)

    Conventions.
    - A Python [str] is a [list ascii]; an [ascii] stands for the code point of
      the same number, so the model covers the strings over code points 0..255
      and classifies them as Python does ([\w], [\s], [\d], [str.strip]).
    - Python [int] is [Z]; a ratio that Python computes in floating point is an
      exact rational [Q].
    - A [dict] is a [gmap]; a raised exception is the [Raise] outcome of a small
      state-and-exception monad.
    - Wall-clock values ([datetime.now()], durations, random jitter) are inputs
      or are left out of the records. *)

From Stdlib Require Import Ascii String QArith.
From stdpp Require Import gmap strings list.
From Equations Require Import Equations.

Local Open Scope Z_scope.
Local Open Scope list_scope.

(** ** Text *)

Module Text.

Abbreviation text := (list ascii).

Definition txt (s : string) : text := list_ascii_of_string s.

Definition code (c : ascii) : N := N_of_ascii c.

Definition between (lo hi : N) (c : ascii) : bool :=
  ((lo <=? code c) && (code c <=? hi))%N.

(** [\d] on [str] patterns: the decimal digits (category Nd). *)
Definition isdecimal (c : ascii) : bool := between 48 57 c.

(** [\s] and the characters removed by [str.strip()]. *)
Definition isspace (c : ascii) : bool :=
  between 9 13 c || between 28 32 c || (code c =? 133)%N || (code c =? 160)%N.

(** [str.isalnum] for a single character. *)
Definition isalnum (c : ascii) : bool :=
  between 48 57 c || between 65 90 c || between 97 122 c
  || (code c =? 170)%N || between 178 179 c || (code c =? 181)%N
  || between 185 186 c || between 188 190 c
  || between 192 214 c || between 216 246 c || between 248 255 c.

(** [\w]: alphanumeric or underscore. *)
Definition isword (c : ascii) : bool := isalnum c || (code c =? 95)%N.

(** The ASCII class [A-Za-z0-9_.-] of the specification. *)
Definition is_ascii_safe (c : ascii) : bool :=
  between 65 90 c || between 97 122 c || between 48 57 c
  || (code c =? 95)%N || (code c =? 46)%N || (code c =? 45)%N.

Fixpoint drop_while (p : ascii -> bool) (s : text) : text :=
  match s with
  | c :: t => if p c then drop_while p t else s
  | [] => []
  end.

Definition lstrip (s : text) : text := drop_while isspace s.
Definition rstrip (s : text) : text := rev (drop_while isspace (rev s)).
(** [str.strip()] *)
Definition strip (s : text) : text := rstrip (lstrip s).

Fixpoint starts_with (w s : text) : bool :=
  match w, s with
  | [], _ => true
  | a :: w', b :: s' => Ascii.eqb a b && starts_with w' s'
  | _ :: _, [] => false
  end.


(** [s.find(w)] as an option. *)
Fixpoint find_sub (w s : text) : option nat :=
  if starts_with w s then Some 0%nat
  else match s with
       | [] => None
       | _ :: t => S <$> find_sub w t
       end.

(** Lexicographic order on code points: [a < b] on [str]. *)
Fixpoint text_ltb (a b : text) : bool :=
  match a, b with
  | [], [] => false
  | [], _ :: _ => true
  | _ :: _, [] => false
  | x :: a', y :: b' =>
      if (code x <? code y)%N then true
      else if (code y <? code x)%N then false
      else text_ltb a' b'
  end.

(** [str(n)] for a natural number. *)
Fixpoint digits_fuel (fuel : nat) (n : N) (acc : text) : text :=
  match fuel with
  | O => acc
  | S f =>
      let d := ascii_of_N (48 + n mod 10) in
      if (n <? 10)%N then d :: acc else digits_fuel f (n / 10)%N (d :: acc)
  end.

Definition str_of_N (n : N) : text := digits_fuel (S (N.to_nat (N.log2 n))) n [].

(** [str(i)] for an integer. *)
Definition str_of_Z (i : Z) : text :=
  match i with
  | Z0 => txt "0"
  | Zpos p => str_of_N (Npos p)
  | Zneg p => txt "-" ++ str_of_N (Npos p)
  end.

End Text.
Export Text.

(** ** Regular expressions

    The patterns of the sources are run by a backtracking matcher with the
    priorities of Python's [re]: alternatives left to right, greedy
    quantifiers longest first, lazy quantifiers shortest first, and the first
    successful path wins. *)

Module Re.

Inductive regex : Type :=
| Eps
| Chr (c : ascii)
| Class (p : ascii -> bool)
| Seq (r1 r2 : regex)
| Alt (r1 r2 : regex)
| Opt (r : regex)
| Star (r : regex)
| StarLazy (r : regex)
| Group (i : nat) (r : regex).

Definition Plus (r : regex) : regex := Seq r (Star r).

Fixpoint Repeat (n : nat) (r : regex) : regex :=
  match n with
  | O => Eps
  | S n' => Seq r (Repeat n' r)
  end.

Fixpoint Lit (w : text) : regex :=
  match w with
  | [] => Eps
  | c :: w' => Seq (Chr c) (Lit w')
  end.

Definition any_char : ascii -> bool := fun _ => true.

(** Captured groups, most recent first. *)
Definition groups := list (nat * text).

Fixpoint group (i : nat) (g : groups) : text :=
  match g with
  | [] => []
  | (j, s) :: g' => if Nat.eqb i j then s else group i g'
  end.

(** [run r s g k]: match [r] at the start of [s]; [k] receives the rest of
    the subject and the groups; [None] makes the matcher backtrack. *)
Fixpoint run {A} (r : regex) (s : text) (g : groups)
    (k : text -> groups -> option A) {struct r} : option A :=
  match r with
  | Eps => k s g
  | Chr c =>
      match s with
      | x :: t => if Ascii.eqb x c then k t g else None
      | [] => None
      end
  | Class p =>
      match s with
      | x :: t => if p x then k t g else None
      | [] => None
      end
  | Seq r1 r2 => run r1 s g (fun s' g' => run r2 s' g' k)
  | Alt r1 r2 =>
      match run r1 s g k with
      | Some v => Some v
      | None => run r2 s g k
      end
  | Opt r1 =>
      match run r1 s g k with
      | Some v => Some v
      | None => k s g
      end
  | Star r1 =>
      (fix loop (n : nat) (s : text) (g : groups) {struct n} : option A :=
         match n with
         | O => k s g
         | S n' =>
             match run r1 s g (fun s' g' =>
                     if (length s' <? length s)%nat then loop n' s' g' else None) with
             | Some v => Some v
             | None => k s g
             end
         end) (length s) s g
  | StarLazy r1 =>
      (fix loop (n : nat) (s : text) (g : groups) {struct n} : option A :=
         match k s g with
         | Some v => Some v
         | None =>
             match n with
             | O => None
             | S n' =>
                 run r1 s g (fun s' g' =>
                   if (length s' <? length s)%nat then loop n' s' g' else None)
             end
         end) (length s) s g
  | Group i r1 =>
      run r1 s g (fun s' g' => k s' ((i, take (length s - length s') s) :: g'))
  end.

(** A match: the groups (group 0 is the whole match) and the text after it. *)
Definition match_at (r : regex) (s : text) : option (groups * text) :=
  run (Group 0 r) s [] (fun rest g => Some (g, rest)).

(** [re.match(r, s)] *)
Definition re_match (r : regex) (s : text) : option groups :=
  fst <$> match_at r s.

(** [re.search(r, s)]: the leftmost position with a match. *)
Fixpoint re_search (r : regex) (s : text) : option groups :=
  match match_at r s with
  | Some (g, _) => Some g
  | None =>
      match s with
      | [] => None
      | _ :: t => re_search r t
      end
  end.

(** [re.sub(r, repl, s)] for a pattern that matches no empty string and a
    replacement without group references. *)
Equations re_sub (r : regex) (repl : text) (s : text) : text by wf (length s) lt :=
  re_sub r repl [] := [];
  re_sub r repl (c :: t) with (match_at r (c :: t)) => {
    | Some (_, rest) with (decide (length rest < length (c :: t))%nat) => {
        | left _ := repl ++ re_sub r repl rest;
        | right _ := c :: re_sub r repl t };
    | None := c :: re_sub r repl t }.

End Re.
Export Re.

(** ** Exceptions and mutable state

    A method that mutates its object and may raise is a function from the
    state to the new state and an outcome; the state reached when the
    exception is raised is kept, as in Python. *)

Module Exn.

Inductive outcome (A : Type) : Type :=
| Ok (a : A)
| Raise (e : text).
Arguments Ok {A} a.
Arguments Raise {A} e.

Definition M (S A : Type) : Type := S -> S * outcome A.

Definition ret {S A} (a : A) : M S A := fun s => (s, Ok a).

Definition bind {S A B} (m : M S A) (k : A -> M S B) : M S B :=
  fun s =>
    match m s with
    | (s', Ok a) => k a s'
    | (s', Raise e) => (s', Raise e)
    end.

Definition raise {S A} (e : text) : M S A := fun s => (s, Raise e).

Definition get {S} : M S S := fun s => (s, Ok s).

Definition modify {S} (f : S -> S) : M S unit := fun s => (f s, Ok tt).

(** [try: m  except Exception as e: h e] *)
Definition try_except {S A} (m : M S A) (h : text -> M S A) : M S A :=
  fun s =>
    match m s with
    | (s', Ok a) => (s', Ok a)
    | (s', Raise e) => h e s'
    end.

(** Run a method of a component object held in a field of the state. *)
Definition zoom {S T A} (proj : S -> T) (upd : T -> S -> S) (m : M T A) : M S A :=
  fun s => let '(t', r) := m (proj s) in (upd t' s, r).

(** [for x in l: body x] *)
Fixpoint for_each {S A} (l : list A) (body : A -> M S unit) : M S unit :=
  match l with
  | [] => ret tt
  | x :: l' => bind (body x) (fun _ => for_each l' body)
  end.


End Exn.
Export Exn.

Notation "x <- m ;; k" := (bind m (fun x => k))
  (at level 90, m at next level, right associativity).
Notation "m ;;; k" := (bind m (fun _ => k))
  (at level 90, right associativity).

(** ** Progress tracker ([main.py], class [ProgressTracker]) *)

Module Tracker.

(** Keys of [content_status]: [set_descriptions_complete] uses [int] keys,
    the per-subunit setters use [str] keys; Python keeps [1] and ["1"] apart. *)
Inductive dict_key : Type :=
| IntKey (i : Z)
| StrKey (s : text).

#[global] Instance dict_key_eq_dec : EqDecision dict_key.
Proof. solve_decision. Defined.

#[global] Instance dict_key_countable : Countable dict_key.
Proof.
  refine (inj_countable'
            (fun k => match k with IntKey i => inl i | StrKey s => inr s end)
            (fun x => match x with inl i => IntKey i | inr s => StrKey s end) _).
  intros []; reflexivity.
Defined.

(** A log entry without its timestamp; [value] is the number formatted into
    the message, when there is one. *)
Record log_entry : Type := LogEntry {
  level : text;
  message : text;
  component : text;
  value : option Q
}.

Record ProgressTracker : Type := MkTracker {
  course_title : text;
  status : text;
  outline_status : text;
  description_status : text;
  content_status : gmap dict_key text;
  errors : gmap text text;
  completed_count : Z;
  total_count : Z;
  logs : list log_entry
}.

Definition init (title : text) : ProgressTracker :=
  {| course_title := title;
     status := txt "initializing";
     outline_status := txt "pending";
     description_status := txt "pending";
     content_status := ∅;
     errors := ∅;
     completed_count := 0;
     total_count := 0;
     logs := [] |}.

Definition set_status (v : text) (t : ProgressTracker) : ProgressTracker :=
  MkTracker (course_title t) v (outline_status t) (description_status t)
    (content_status t) (errors t) (completed_count t) (total_count t) (logs t).

Definition set_outline_status (v : text) (t : ProgressTracker) : ProgressTracker :=
  MkTracker (course_title t) (status t) v (description_status t)
    (content_status t) (errors t) (completed_count t) (total_count t) (logs t).

Definition set_description_status (v : text) (t : ProgressTracker) : ProgressTracker :=
  MkTracker (course_title t) (status t) (outline_status t) v
    (content_status t) (errors t) (completed_count t) (total_count t) (logs t).

Definition set_content_status (v : gmap dict_key text) (t : ProgressTracker) : ProgressTracker :=
  MkTracker (course_title t) (status t) (outline_status t) (description_status t)
    v (errors t) (completed_count t) (total_count t) (logs t).

Definition set_errors (v : gmap text text) (t : ProgressTracker) : ProgressTracker :=
  MkTracker (course_title t) (status t) (outline_status t) (description_status t)
    (content_status t) v (completed_count t) (total_count t) (logs t).

Definition set_completed_count (v : Z) (t : ProgressTracker) : ProgressTracker :=
  MkTracker (course_title t) (status t) (outline_status t) (description_status t)
    (content_status t) (errors t) v (total_count t) (logs t).

Definition set_total_count (v : Z) (t : ProgressTracker) : ProgressTracker :=
  MkTracker (course_title t) (status t) (outline_status t) (description_status t)
    (content_status t) (errors t) (completed_count t) v (logs t).

Definition set_logs (v : list log_entry) (t : ProgressTracker) : ProgressTracker :=
  MkTracker (course_title t) (status t) (outline_status t) (description_status t)
    (content_status t) (errors t) (completed_count t) (total_count t) v.

(** [self.logs.append(log_entry)] *)
Definition log (lvl msg comp : text) (v : option Q) : M ProgressTracker unit :=
  modify (fun t => set_logs (logs t ++ [LogEntry lvl msg comp v]) t).

Definition set_outline_complete (units_count : Z) : M ProgressTracker unit :=
  modify (set_outline_status (txt "complete")) ;;;
  modify (set_status (txt "enhancing-descriptions")) ;;;
  log (txt "success")
      (txt "Outline generated with " ++ str_of_Z units_count ++ txt " units")
      (txt "outline") None.

(** [{i: "pending" for i in range(1, subunit_count + 1)}] *)
Definition pending_map (subunit_count : Z) : gmap dict_key text :=
  list_to_map ((fun i => (IntKey i, txt "pending")) <$> seqZ 1 subunit_count).

Definition set_descriptions_complete (subunit_count : Z) : M ProgressTracker unit :=
  modify (set_description_status (txt "complete")) ;;;
  modify (set_status (txt "generating-content")) ;;;
  modify (set_total_count subunit_count) ;;;
  modify (set_content_status (pending_map subunit_count)) ;;;
  log (txt "success")
      (txt "Descriptions enhanced for " ++ str_of_Z subunit_count ++ txt " subunits")
      (txt "descriptions") None.

Definition start_subunit_content (subunit_id : text) : M ProgressTracker unit :=
  modify (fun t => set_content_status (<[StrKey subunit_id := txt "in-progress"]> (content_status t)) t) ;;;
  log (txt "info") (txt "Starting content generation") (txt "subunit-" ++ subunit_id) None.

(** [a / b] on integers: true division, [ZeroDivisionError] when [b] is 0. *)
Definition truediv {S} (a b : Z) : M S Q :=
  if b =? 0 then raise (txt "division by zero")
  else ret (Qred (inject_Z a / inject_Z b)).

(** [(completed / total) * 100 if total > 0 else 0] *)
Definition percentage {S} (completed total : Z) : M S Q :=
  if 0 <? total
  then q <- truediv completed total ;; ret (Qred (q * 100))
  else ret 0%Q.

Definition complete_subunit_content (subunit_id : text) : M ProgressTracker unit :=
  modify (fun t => set_content_status (<[StrKey subunit_id := txt "complete"]> (content_status t)) t) ;;;
  modify (fun t => set_completed_count (completed_count t + 1) t) ;;;
  t <- get ;;
  progress <- percentage (completed_count t) (total_count t) ;;
  log (txt "success") (txt "Content generation complete. Overall progress: ")
      (txt "subunit-" ++ subunit_id) (Some progress) ;;;
  if completed_count t =? total_count t
  then modify (set_status (txt "complete")) ;;;
       log (txt "success") (txt "All content generated") (txt "pipeline") None
  else ret tt.

Definition error_in_subunit (subunit_id error : text) : M ProgressTracker unit :=
  modify (fun t => set_content_status (<[StrKey subunit_id := txt "error"]> (content_status t)) t) ;;;
  modify (fun t => set_errors (<[txt "subunit-" ++ subunit_id := error]> (errors t)) t) ;;;
  log (txt "error") (txt "Error during content generation: " ++ error)
      (txt "subunit-" ++ subunit_id) None.

(** The summary without [start_time] and [duration_minutes]. *)
Record summary : Type := MkSummary {
  s_course_title : text;
  s_status : text;
  s_outline_status : text;
  s_description_status : text;
  completed_subunits : Z;
  total_subunits : Z;
  progress_percentage : Q;
  error_count : nat
}.

Definition get_summary : M ProgressTracker summary :=
  t <- get ;;
  pct <- percentage (completed_count t) (total_count t) ;;
  ret {| s_course_title := course_title t;
         s_status := status t;
         s_outline_status := outline_status t;
         s_description_status := description_status t;
         completed_subunits := completed_count t;
         total_subunits := total_count t;
         progress_percentage := pct;
         error_count := size (errors t) |}.

(** [json.dump] writes every key of an object as a string: an [int] key [i]
    becomes [str(i)]. *)
Definition json_key (k : dict_key) : text :=
  match k with
  | IntKey i => str_of_Z i
  | StrKey s => s
  end.

(** The document written by [save_progress]. *)
Record progress_file : Type := MkProgressFile {
  pf_summary : summary;
  pf_content_status : list (text * text);
  pf_errors : list (text * text);
  pf_logs : list log_entry
}.

Definition snapshot : M ProgressTracker progress_file :=
  sm <- get_summary ;;
  t <- get ;;
  ret {| pf_summary := sm;
         pf_content_status := prod_map json_key id <$> map_to_list (content_status t);
         pf_errors := map_to_list (errors t);
         pf_logs := logs t |}.

End Tracker.
Export Tracker.

(** ** API client ([main.py], [PerplexityClient.send_request]) *)

Module Client.

Definition MAX_RETRIES : Z := 5.
Definition RETRY_DELAY_BASE : Z := 2.

(** What one [session.post] yields: a response with its status and JSON body,
    or a network failure ([aiohttp.ClientError]). *)
Inductive post_result : Type :=
| Response (status : Z) (body : text)
| ClientError (e : text).

(** The pauses of the retry loop; the random jitter and the header value that
    lengthen them are left out. *)
Inductive pause : Type :=
| RateLimitWait
| Backoff (seconds : Z).

Record client_log : Type := MkClientLog {
  posts : nat;
  pauses : list pause;
  sessions_recreated : nat
}.

Definition posted (l : client_log) : client_log :=
  MkClientLog (S (posts l)) (pauses l) (sessions_recreated l).

Definition paused (p : pause) (l : client_log) : client_log :=
  MkClientLog (posts l) (pauses l ++ [p]) (sessions_recreated l).

Definition recreated (l : client_log) : client_log :=
  MkClientLog (posts l) (pauses l) (S (sessions_recreated l)).

(** The [while retry_count <= MAX_RETRIES] loop; [server n] is the result of
    the [n]-th post of the call. *)
Equations? retry_loop (server : nat -> post_result) (retry_count : Z) (l : client_log)
  : client_log * outcome text by wf (Z.to_nat (MAX_RETRIES + 1 - retry_count)) lt :=
  retry_loop server retry_count l with decide (retry_count <= MAX_RETRIES) => {
    | right _ := (l, Raise (txt "Failed after " ++ str_of_Z MAX_RETRIES ++ txt " retries"));
    | left _ with server (posts l) => {
        | Response status body with decide (status = 200) => {
            | left _ := (posted l, Ok body);
            | right _ with decide (status = 429) => {
                | left _ := retry_loop server (retry_count + 1) (paused RateLimitWait (posted l));
                | right _ with decide (500 <= status) => {
                    | left _ :=
                        retry_loop server (retry_count + 1)
                          (paused (Backoff (RETRY_DELAY_BASE ^ retry_count)) (posted l));
                    | right _ :=
                        (posted l,
                          Raise (txt "API request failed with status " ++ str_of_Z status
                                 ++ txt ": " ++ body)) } } };
        | ClientError e with decide ((retry_count + 1) mod 2 = 0) => {
            | left _ :=
                retry_loop server (retry_count + 1)
                  (recreated (paused (Backoff (RETRY_DELAY_BASE ^ retry_count)) (posted l)));
            | right _ :=
                retry_loop server (retry_count + 1)
                  (paused (Backoff (RETRY_DELAY_BASE ^ retry_count)) (posted l)) } } }.
Proof. all: unfold MAX_RETRIES in *; lia. Qed.

Definition send_request (server : nat -> post_result) : client_log * outcome text :=
  retry_loop server 0 (MkClientLog 0 [] 0).

End Client.
Export Client.

(** ** The outline and its parts (specification, section 3)

    A number ([unit_number], [subunit_number]) is held as the text that
    [str()] and an f-string give for it. *)

Module Outline.

Record Subunit : Type := MkSubunit {
  subunit_number : text;
  subunit_title : text;
  learning_objectives : list text;
  key_topics : list text
}.

Record Unit : Type := MkUnit {
  unit_number : text;
  unit_title : text;
  unit_description : text;
  subunits : list Subunit
}.

Record Course : Type := MkCourse {
  title : text;
  description : text;
  difficulty_level : text;
  estimated_duration : text
}.

Record Outline : Type := MkOutline {
  course : Course;
  units : list Unit
}.

(** An entry of [enhanced_descriptions.json]. *)
Record Description : Type := MkDescription {
  d_subunit_number : text;
  subunit_description : text
}.

End Outline.
Export Outline.

(** ** File utilities ([main.py], class [FileUtils]) *)

Module FileUtils.

Definition OUTPUT_DIR : text := txt "output".

(** [os.path.join] on relative components. *)
Definition path_join (a b : text) : text := a ++ txt "/" ++ b.

(** [[^\w\-\.]] *)
Definition unsafe_char (c : ascii) : bool :=
  negb (isword c || Ascii.eqb c "-" || Ascii.eqb c ".").

(** [__+] *)
Definition underscores : regex := Seq (Chr "_") (Plus (Chr "_")).

Definition sanitize_filename (t : text) : text :=
  let sanitized := re_sub (Class unsafe_char) (txt "_") t in
  let sanitized := re_sub underscores (txt "_") sanitized in
  if (50 <? length sanitized)%nat then take 50 sanitized else sanitized.

(** [now] is [datetime.now().strftime("%Y%m%d-%H%M%S")]. *)
Definition create_course_folder (now : text) (course_title : text) : text :=
  let timestamp := now in
  let safe_title := sanitize_filename course_title in
  safe_title ++ txt "-" ++ timestamp.

(** A value of the frontmatter dictionary. *)
Inductive fm_value : Type :=
| Scalar (v : text)
| Items (l : list text).

Definition frontmatter_of (unit_info : Unit) (subunit_info : Subunit) (course_info : Course)
  : list (text * fm_value) :=
  [ (txt "title", Scalar (subunit_title subunit_info));
    (txt "unit", Scalar (unit_title unit_info));
    (txt "unit_number", Scalar (unit_number unit_info));
    (txt "subunit_number", Scalar (subunit_number subunit_info));
    (txt "course", Scalar (title course_info));
    (txt "difficulty_level", Scalar (difficulty_level course_info));
    (txt "learning_objectives", Items (learning_objectives subunit_info));
    (txt "key_topics", Items (key_topics subunit_info)) ].

Definition quote : text := [ascii_of_nat 34].
Definition newline : text := [ascii_of_nat 10].

(** One pass of the loop that formats the frontmatter as YAML. *)
Definition yaml_entry (kv : text * fm_value) : text :=
  match kv with
  | (key, Items value) =>
      key ++ txt ":" ++ newline
      ++ concat ((fun item => txt "  - " ++ quote ++ item ++ quote ++ newline) <$> value)
  | (key, Scalar value) =>
      key ++ txt ": " ++ quote ++ value ++ quote ++ newline
  end.

Definition yaml_lines (fm : list (text * fm_value)) : text := concat (yaml_entry <$> fm).

Definition yaml_frontmatter (fm : list (text * fm_value)) : text :=
  txt "---" ++ newline ++ yaml_lines fm ++ txt "---" ++ newline ++ newline.

(** [save_markdown]: the path and the text written there. *)
Definition save_markdown (content : text) (unit_info : Unit) (subunit_info : Subunit)
    (course_info : Course) (course_folder : text) : text * text :=
  let course_dir := path_join OUTPUT_DIR course_folder in
  let unit_folder :=
    txt "unit" ++ unit_number unit_info ++ txt "-" ++ sanitize_filename (unit_title unit_info) in
  let unit_dir := path_join course_dir unit_folder in
  let filename :=
    txt "subunit" ++ subunit_number subunit_info ++ txt "-"
    ++ sanitize_filename (subunit_title subunit_info) ++ txt ".md" in
  let filepath := path_join unit_dir filename in
  let full_content := yaml_frontmatter (frontmatter_of unit_info subunit_info course_info) ++ content in
  (filepath, full_content).

End FileUtils.
Export FileUtils.

(** ** [list.sort(key=..., reverse=...)]

    Python's sort is stable, also with [reverse=True]: elements with equal
    keys keep their order. *)

Module Py.

Section Sort.
Context {A K : Type} (lt : K -> K -> bool) (key : A -> K) (reverse : bool).

(** [precedes y x]: [y] must come before [x] whatever their input order. *)
Definition precedes (y x : A) : bool :=
  if reverse then lt (key x) (key y) else lt (key y) (key x).

Fixpoint insert_sorted (x : A) (l : list A) : list A :=
  match l with
  | [] => [x]
  | y :: l' => if precedes y x then y :: insert_sorted x l' else x :: l
  end.

Definition sort (l : list A) : list A := foldr insert_sorted [] l.

End Sort.

(** Tuples [(bool, k)] compare first on the flag, [False < True]. *)
Definition flagged_lt {K} (lt : K -> K -> bool) (a b : bool * K) : bool :=
  match a, b with
  | (false, _), (true, _) => true
  | (true, _), (false, _) => false
  | (_, x), (_, y) => lt x y
  end.

End Py.

(** ** The pipeline ([main.py], class [CoursePipeline]) *)

Module Pipeline.

(** Files under the output directory, by path. *)
Inductive file : Type :=
| OutlineJson (o : Outline)
| DescriptionsJson (d : list Description)
| MarkdownFile (t : text)
| ProgressJson (p : progress_file).

Record State : Type := MkState {
  progress : ProgressTracker;
  files : gmap text file;
  course_folder : option text
}.

Definition set_progress (v : ProgressTracker) (s : State) : State :=
  MkState v (files s) (course_folder s).
Definition set_files (v : gmap text file) (s : State) : State :=
  MkState (progress s) v (course_folder s).
Definition set_course_folder (v : option text) (s : State) : State :=
  MkState (progress s) (files s) v.

(** What the run takes from outside: the clock, the language model behind
    [read_prompt], [send_request] and [extract_content] (the reply text or
    the exception of the call), and the library functions [json.loads]
    ([None] for [JSONDecodeError]) and [float] ([None] for [ValueError]). *)
Record World : Type := MkWorld {
  now : text;
  llm_outline : outcome text;
  llm_descriptions : Outline -> outcome text;
  llm_content : Subunit -> outcome text;
  json_outline : text -> option Outline;
  json_descriptions : text -> option (list Description);
  to_float : text -> option Q
}.

Definition on_progress {A} (m : M ProgressTracker A) : M State A :=
  zoom progress set_progress m.

Definition write_file (path : text) (f : file) : M State unit :=
  modify (fun s => set_files (<[path := f]> (files s)) s).

(** An awaited call that returns or raises without touching the state. *)
Definition await {A} (r : outcome A) : M State A := fun s => (s, r).

(** [[\s\S]] *)
Definition space_or_not (c : ascii) : bool := isspace c || negb (isspace c).

Definition backticks : text := txt "```".

(** [```(?:json)?\s*([\s\S]*?)\s*```] *)
Definition fence_re : regex :=
  Seq (Lit backticks)
    (Seq (Opt (Lit (txt "json")))
       (Seq (Star (Class isspace))
          (Seq (Group 1 (StarLazy (Class space_or_not)))
             (Seq (Star (Class isspace)) (Lit backticks))))).

(** [(\{[\s\S]*\}|\[[\s\S]*\])] *)
Definition span_re : regex :=
  Group 1
    (Alt (Seq (Chr "{") (Seq (Star (Class space_or_not)) (Chr "}")))
         (Seq (Chr "[") (Seq (Star (Class space_or_not)) (Chr "]")))).

Definition _extract_json (content : text) : text :=
  match re_search fence_re content with
  | Some json_match => strip (group 1 json_match)
  | None =>
      match re_search span_re content with
      | Some json_match => strip (group 1 json_match)
      | None => strip content
      end
  end.

(** [save_json(data, filename, course_folder)] with a course folder. *)
Definition save_json (data : file) (filename folder : text) : M State text :=
  let target_dir := path_join OUTPUT_DIR folder in
  let filepath := path_join target_dir filename in
  write_file filepath data ;;; ret filepath.

Definition len {A} (l : list A) : Z := Z.of_nat (length l).

Definition generate_outline (w : World) : M State Outline :=
  on_progress (log (txt "info") (txt "Starting outline generation") (txt "outline") None) ;;;
  content <- await (llm_outline w) ;;
  let json_content := _extract_json content in
  match json_outline w json_content with
  | Some outline =>
      let folder := create_course_folder (now w) (title (course outline)) in
      modify (set_course_folder (Some folder)) ;;;
      filepath <- save_json (OutlineJson outline) (txt "course_outline.json") folder ;;
      on_progress (log (txt "info") (txt "Outline saved to " ++ filepath) (txt "outline") None) ;;;
      on_progress (set_outline_complete (len (units outline))) ;;;
      ret outline
  | None =>
      on_progress (log (txt "error") (txt "Failed to parse outline JSON") (txt "outline") None) ;;;
      raise (txt "JSONDecodeError")
  end.

Definition enhance_descriptions (w : World) (outline : Outline) : M State (list Description) :=
  on_progress (log (txt "info") (txt "Starting description enhancement") (txt "descriptions") None) ;;;
  content <- await (llm_descriptions w outline) ;;
  let json_content := _extract_json content in
  match json_descriptions w json_content with
  | Some enhanced =>
      s <- get ;;
      match course_folder s with
      | Some folder =>
          filepath <- save_json (DescriptionsJson enhanced) (txt "enhanced_descriptions.json") folder ;;
          on_progress (log (txt "info") (txt "Enhanced descriptions saved to " ++ filepath)
                         (txt "descriptions") None) ;;;
          on_progress (set_descriptions_complete (len enhanced)) ;;;
          ret enhanced
      | None => raise (txt "TypeError")
      end
  | None =>
      on_progress (log (txt "error") (txt "Failed to parse enhanced descriptions JSON")
                     (txt "descriptions") None) ;;;
      raise (txt "JSONDecodeError")
  end.

(** [next((desc["subunit_description"] for desc in ... if str(...) == str(...)), None)] *)
Definition find_description (enhanced : list Description) (number : text) : option text :=
  subunit_description <$> List.find (fun d => bool_decide (d_subunit_number d = number)) enhanced.

(** [not description] *)
Definition falsy (d : option text) : bool :=
  match d with
  | None => true
  | Some [] => true
  | Some (_ :: _) => false
  end.

(** The two nested loops that look the subunit up in the outline. *)
Fixpoint find_unit (us : list Unit) (number : text) : option (Unit * Subunit) :=
  match us with
  | [] => None
  | u :: us' =>
      match List.find (fun s => bool_decide (subunit_number s = number)) (subunits u) with
      | Some s => Some (u, s)
      | None => find_unit us' number
      end
  end.

Definition generate_subunit_content (w : World) (outline : Outline)
    (enhanced : list Description) (subunit_info : Subunit) : M State text :=
  let number := subunit_number subunit_info in
  let subunit_id := number in
  on_progress (start_subunit_content subunit_id) ;;;
  on_progress (log (txt "info") (txt "Generating content for subunit " ++ number)
                 (txt "subunit-" ++ subunit_id) None) ;;;
  let description := find_description enhanced number in
  if falsy description then
    let error_msg := txt "No enhanced description found for subunit " ++ number in
    on_progress (error_in_subunit subunit_id error_msg) ;;;
    raise error_msg
  else
    match find_unit (units outline) number with
    | None =>
        let error_msg := txt "Could not find unit information for subunit " ++ number in
        on_progress (error_in_subunit subunit_id error_msg) ;;;
        raise error_msg
    | Some (unit_info, found) =>
        content <- await (llm_content w subunit_info) ;;
        s <- get ;;
        match course_folder s with
        | Some folder =>
            let '(filepath, full_content) :=
              save_markdown content unit_info found (course outline) folder in
            write_file filepath (MarkdownFile full_content) ;;;
            on_progress (log (txt "info") (txt "Content saved to " ++ filepath)
                           (txt "subunit-" ++ subunit_id) None) ;;;
            on_progress (complete_subunit_content subunit_id) ;;;
            ret content
        | None => raise (txt "TypeError")
        end
    end.

(** The body of [process_with_semaphore]: the error boundary of one subunit. *)
Definition process_with_semaphore (w : World) (outline : Outline)
    (enhanced : list Description) (subunit : Subunit) : M State unit :=
  try_except
    (generate_subunit_content w outline enhanced subunit ;;; ret tt)
    (fun e =>
       let subunit_id := subunit_number subunit in
       on_progress (error_in_subunit subunit_id e)).

(** The keys of [all_subunits.sort(key=lambda x: float(...))], computed
    before any element moves; one failing conversion fails the sort. *)
Fixpoint with_keys (to_float : text -> option Q) (l : list Subunit)
  : option (list (Q * Subunit)) :=
  match l with
  | [] => Some []
  | x :: l' =>
      match to_float (subunit_number x), with_keys to_float l' with
      | Some k, Some r => Some ((k, x) :: r)
      | _, _ => None
      end
  end.

Definition Qltb (a b : Q) : bool := negb (Qle_bool b a).

(** The subunits are processed one after the other in sorted order. The
    source starts the tasks in this order and lets up to three of them
    overlap while they await the language model. *)
Definition generate_all_content (w : World) (outline : Outline)
    (enhanced : list Description) : M State unit :=
  let all_subunits := concat (subunits <$> units outline) in
  match with_keys (to_float w) all_subunits with
  | None => raise (txt "ValueError")
  | Some keyed =>
      let sorted := snd <$> Py.sort Qltb fst false keyed in
      for_each sorted (process_with_semaphore w outline enhanced)
  end.

Definition save_progress (filepath : text) : M State unit :=
  doc <- on_progress snapshot ;;
  write_file filepath (ProgressJson doc).

Definition run_pipeline (w : World) : M State unit :=
  try_except
    (outline <- generate_outline w ;;
     enhanced <- enhance_descriptions w outline ;;
     generate_all_content w outline enhanced ;;;
     s <- get ;;
     let progress_file :=
       match course_folder s with
       | Some folder => path_join (path_join OUTPUT_DIR folder) (txt "progress_final.json")
       | None => path_join OUTPUT_DIR (txt "progress_final.json")
       end in
     save_progress progress_file ;;;
     on_progress (log (txt "success") (txt "Course generation pipeline completed successfully")
                    (txt "pipeline") None))
    (fun e =>
       on_progress (log (txt "error") (txt "Pipeline failed: " ++ e) (txt "pipeline") None) ;;;
       raise e).

Definition new_pipeline (course_title : text) (fs : gmap text file) : State :=
  MkState (Tracker.init course_title) fs None.

(** [main]: the run, and the error snapshot when it fails. *)
Definition main (w : World) (course_title : text) (fs : gmap text file) : State :=
  match run_pipeline w (new_pipeline course_title fs) with
  | (s, Ok _) => s
  | (s, Raise _) =>
      fst (save_progress (path_join OUTPUT_DIR (txt "progress_error.json")) s)
  end.

End Pipeline.
Export Pipeline.

(** ** [datetime] values and the format [%Y%m%d-%H%M%S] *)

Module Datetime.

Record datetime : Type := MkDatetime {
  year : Z; month : Z; day : Z; hour : Z; minute : Z; second : Z; microsecond : Z
}.

(** [datetime.max] *)
Definition datetime_max : datetime := MkDatetime 9999 12 31 23 59 59 999999.

Definition digit (c : ascii) : Z := Z.of_N (code c) - 48.

Definition two (a b : ascii) : Z := 10 * digit a + digit b.

Definition is_leap (y : Z) : bool :=
  (y mod 4 =? 0) && (negb (y mod 100 =? 0) || (y mod 400 =? 0)).

Definition days_in_month (y m : Z) : Z :=
  if m =? 2 then (if is_leap y then 29 else 28)
  else if (m =? 4) || (m =? 6) || (m =? 9) || (m =? 11) then 30
  else 31.

(** [datetime.strptime(s, "%Y%m%d-%H%M%S")] on a string of eight digits, a
    dash and six digits; [None] stands for [ValueError]. The directives take
    two digits each here ([%Y] four), since the dash and the end of the string
    fix where they stop; the fields must then form a date and a time of day. *)
Definition strptime (s : text) : option datetime :=
  match s with
  | [y1; y2; y3; y4; m1; m2; d1; d2; dash; h1; h2; n1; n2; s1; s2] =>
      let y := 100 * two y1 y2 + two y3 y4 in
      let m := two m1 m2 in
      let d := two d1 d2 in
      let h := two h1 h2 in
      let n := two n1 n2 in
      let sec := two s1 s2 in
      if forallb isdecimal [y1; y2; y3; y4; m1; m2; d1; d2; h1; h2; n1; n2; s1; s2]
         && Ascii.eqb dash "-"
         && (1 <=? y) && (1 <=? m) && (m <=? 12) && (1 <=? d) && (d <=? days_in_month y m)
         && (h <=? 23) && (n <=? 59) && (sec <=? 59)
      then Some (MkDatetime y m d h n sec 0)
      else None
  | _ => None
  end.

Definition pad (width : nat) (i : Z) : text :=
  let s := str_of_Z i in replicate (width - length s) "0"%char ++ s.

(** [isoformat()] of a value without microseconds. *)
Definition isoformat (t : datetime) : text :=
  pad 4 (year t) ++ txt "-" ++ pad 2 (month t) ++ txt "-" ++ pad 2 (day t) ++ txt "T"
  ++ pad 2 (hour t) ++ txt ":" ++ pad 2 (minute t) ++ txt ":" ++ pad 2 (second t).

Fixpoint lex_ltb (a b : list Z) : bool :=
  match a, b with
  | x :: a', y :: b' => if x <? y then true else if y <? x then false else lex_ltb a' b'
  | [], _ :: _ => true
  | _, [] => false
  end.

Definition fields (t : datetime) : list Z :=
  [year t; month t; day t; hour t; minute t; second t; microsecond t].

(** [a < b] on [datetime] *)
Definition datetime_ltb (a b : datetime) : bool := lex_ltb (fields a) (fields b).

End Datetime.
Export Datetime.

(** ** Query and creation service ([api/main.py]) *)

Module Api.

(** [(\d{8}-\d{6})] *)
Definition timestamp_re : regex :=
  Group 1 (Seq (Repeat 8 (Class isdecimal)) (Seq (Chr "-") (Repeat 6 (Class isdecimal)))).

Definition extract_timestamp_from_folder (folder_name : text) : option text :=
  match re_search timestamp_re folder_name with
  | Some timestamp_match =>
      let timestamp_str := group 1 timestamp_match in
      match strptime timestamp_str with
      | Some timestamp => Some (isoformat timestamp)
      | None => None
      end
  | None => None
  end.

Definition exists_path (fs : gmap text file) (path : text) : bool :=
  bool_decide (is_Some (fs !! path)).

Definition is_course_complete (fs : gmap text file) (course_folder : text) : bool :=
  exists_path fs (path_join (path_join OUTPUT_DIR course_folder) (txt "progress_final.json")).

Definition is_course_in_progress (fs : gmap text file) (course_folder : text) : bool :=
  if exists_path fs (path_join (path_join OUTPUT_DIR course_folder) (txt "progress.json"))
  then true
  else exists_path fs (path_join (path_join OUTPUT_DIR course_folder) (txt "course_outline.json"))
       && negb (is_course_complete fs course_folder).

(** The fields of a course record that come from the folder name and from
    the presence of files. *)
Record course_info : Type := MkCourseInfo {
  ci_title : text;
  ci_folder : text;
  ci_timestamp : option text;
  ci_complete : bool;
  ci_in_progress : bool
}.

Definition get_course_info (fs : gmap text file) (course_folder : text) : course_info :=
  let outline_path := path_join (path_join OUTPUT_DIR course_folder) (txt "course_outline.json") in
  {| ci_title :=
       match fs !! outline_path with
       | Some (OutlineJson data) => title (course data)
       | _ => course_folder
       end;
     ci_folder := course_folder;
     ci_timestamp := extract_timestamp_from_folder course_folder;
     ci_complete := is_course_complete fs course_folder;
     ci_in_progress := is_course_in_progress fs course_folder |}.

(** [(x["timestamp"] is None, x["timestamp"] if x["timestamp"] else "")] *)
Definition sort_key (x : course_info) : bool * text :=
  (bool_decide (ci_timestamp x = None),
   match ci_timestamp x with
   | Some (c :: t) => c :: t
   | _ => []
   end).

(** [GET /courses]; [listing] is [os.listdir] restricted to directories. *)
Definition get_courses (fs : gmap text file) (listing : list text) : list course_info :=
  let courses := get_course_info fs <$> listing in
  Py.sort (Py.flagged_lt text_ltb) sort_key true courses.

(** A YAML value as [yaml.safe_load] returns it. *)
#[warnings="-register-all"]
Inductive yaml : Type :=
| YNull
| YStr (s : text)
| YSeq (l : list yaml)
| YMap (m : list (text * yaml)).

(** The line [---] that opens the frontmatter, and a line [---] between two
    line breaks. *)
Definition opening : text := txt "---" ++ newline.
Definition rule_line : text := newline ++ txt "---" ++ newline.

(** The pattern of [re.match] with [re.DOTALL]: the line [---], a lazy first
    group of any characters, a new line, the line [---], and a greedy second
    group of any characters. The leading [^] of the source holds at the
    position where [re.match] starts. *)
Definition frontmatter_re : regex :=
  Seq (Lit opening)
    (Seq (Group 1 (StarLazy (Class any_char)))
       (Seq (Lit rule_line)
          (Group 2 (Star (Class any_char))))).

(** [safe_load] is [yaml.safe_load], [None] standing for [yaml.YAMLError]. *)
Definition parse_markdown_frontmatter (safe_load : text -> option yaml) (content : text)
  : yaml * text :=
  match re_match frontmatter_re content with
  | Some frontmatter_match =>
      let frontmatter_text := group 1 frontmatter_match in
      let main_content := group 2 frontmatter_match in
      match safe_load frontmatter_text with
      | Some frontmatter => (frontmatter, main_content)
      | None => (YMap [], main_content)
      end
  | None => (YMap [], content)
  end.



End Api.
Export Api.

(** ** Viewer ([streamlit_app.py]) *)

Module Ui.

(** [course_title.replace('"', '\\"')] *)
Definition escape_quotes (s : text) : text :=
  flat_map (fun c => if Ascii.eqb c (ascii_of_nat 34) then [ascii_of_nat 92; ascii_of_nat 34] else [c]) s.


Record scanned_course : Type := MkScanned {
  sc_folder : text;
  sc_timestamp : option datetime;
  sc_complete : bool
}.

Definition scan_folder (fs : gmap text file) (item : text) : scanned_course :=
  {| sc_folder := item;
     sc_timestamp :=
       match re_search timestamp_re item with
       | Some timestamp_match => strptime (group 1 timestamp_match)
       | None => None
       end;
     sc_complete :=
       exists_path fs (path_join (path_join OUTPUT_DIR item) (txt "progress_final.json")) |}.

(** [(x["timestamp"] is None, x["timestamp"] if x["timestamp"] else datetime.max)] *)
Definition scan_key (x : scanned_course) : bool * datetime :=
  (bool_decide (sc_timestamp x = None),
   match sc_timestamp x with
   | Some t => t
   | None => datetime_max
   end).

(** [CourseViewer._scan_courses] *)
Definition _scan_courses (fs : gmap text file) (listing : list text) : list scanned_course :=
  let courses := scan_folder fs <$> listing in
  Py.sort (Py.flagged_lt datetime_ltb) scan_key true courses.

End Ui.
Export Ui.

(** ** The policies in the words of the specification *)

Module Policy.














End Policy.
Export Policy.

(** ** Auxiliary notions of the proofs *)

Module Aux.

(** The loops of [Star] and [StarLazy], named. *)
Definition star_loop {A} (r : regex) (k : text -> groups -> option A)
  : nat -> text -> groups -> option A :=
  fix loop (n : nat) (s : text) (g : groups) {struct n} : option A :=
    match n with
    | O => k s g
    | S n' =>
        match run r s g (fun s' g' =>
                if (length s' <? length s)%nat then loop n' s' g' else None) with
        | Some v => Some v
        | None => k s g
        end
    end.

Definition lazy_loop {A} (r : regex) (k : text -> groups -> option A)
  : nat -> text -> groups -> option A :=
  fix loop (n : nat) (s : text) (g : groups) {struct n} : option A :=
    match k s g with
    | Some v => Some v
    | None =>
        match n with
        | O => None
        | S n' =>
            run r s g (fun s' g' =>
              if (length s' <? length s)%nat then loop n' s' g' else None)
        end
    end.

(** Greedy repetition of a class: the longest run first, then shorter ones. *)
Fixpoint greedy {A} (p : ascii -> bool) (s : text) (g : groups)
    (k : text -> groups -> option A) : option A :=
  match s with
  | c :: t =>
      if p c
      then match greedy p t g k with
           | Some v => Some v
           | None => k s g
           end
      else k s g
  | [] => k [] g
  end.

(** Lazy repetition of a class: the shortest run first. *)
Fixpoint lazy {A} (p : ascii -> bool) (s : text) (g : groups)
    (k : text -> groups -> option A) : option A :=
  match k s g with
  | Some v => Some v
  | None =>
      match s with
      | c :: t => if p c then lazy p t g k else None
      | [] => None
      end
  end.

(** The least [i] such that [test] holds of the text from position [i]. *)
Fixpoint find_suffix (test : text -> bool) (s : text) : option nat :=
  if test s then Some 0%nat
  else match s with
       | [] => None
       | _ :: t => S <$> find_suffix test t
       end.

Definition is_us (c : ascii) : bool := Ascii.eqb c "_".

Definition starts_us (s : text) : bool :=
  match s with c :: _ => is_us c | [] => false end.

(** No two adjacent underscores. *)
Fixpoint no_double_us (s : text) : bool :=
  match s with
  | c :: t => negb (is_us c && starts_us t) && no_double_us t
  | [] => true
  end.

(** The first step of both sanitizers: every character outside [[\w.-]]
    becomes an underscore. *)
Definition replaced (t : text) : text := re_sub (Class unsafe_char) (txt "_") t.

Definition safe_char (c : ascii) : bool := negb (unsafe_char c).

(** The second step of [sanitize_filename]. *)
Abbreviation squeeze := (re_sub underscores (txt "_")).

(** A text of white space. *)
Abbreviation spaces := (Forall (fun c => isspace c = true)).






(** The log entry of [complete_subunit_content] that carries the progress. *)
Definition progress_entry (subunit_id : text) (q : Q) : log_entry :=
  LogEntry (txt "success") (txt "Content generation complete. Overall progress: ")
    (txt "subunit-" ++ subunit_id) (Some q).








(** The subunits of the outline, in the order in which they are collected. *)
Definition all_subunits (o : Outline) : list Subunit := concat (subunits <$> units o).











End Aux.
Export Aux.

(** ** Sample data *)

Module Sample.



Definition sub (number : string) : Subunit :=
  MkSubunit (txt number) (txt "Topic " ++ txt number) [txt "objective"] [txt "topic"].

Definition unit1 : Unit :=
  MkUnit (txt "1") (txt "Basics") (txt "First steps") [sub "1.1"; sub "1.2"; sub "1.3"].

Definition algebra : Course :=
  MkCourse (txt "Algebra") (txt "An introduction") (txt "beginner") (txt "2 weeks").

Definition outline : Outline := MkOutline algebra [unit1].






(** A tracker with two of four subunits done. *)
Definition half_done : ProgressTracker :=
  set_total_count 4 (set_completed_count 2 (Tracker.init (txt "Algebra"))).

Definition folder_A : text := txt "A-20240101-000000".
Definition folder_B : text := txt "B".
Definition folder_C : text := txt "C-20240601-000000".

Definition e_acute : ascii := ascii_of_nat 233.









End Sample.

(** * Properties *)

Set Warnings "-clear-no-such-hyp".

(** ** The embedded functions on sample inputs

    The values on the right are those that Python's [re] and [datetime]
    give. *)

Example sanitize_filename_samples :
  sanitize_filename (txt "Intro to C++ & Rust!") = txt "Intro_to_C_Rust_"
  /\ sanitize_filename (txt "x_ _y") = txt "x_y"
  /\ sanitize_filename (repeat "a"%char 60) = repeat "a"%char 50.
Proof. repeat split; vm_compute; reflexivity. Qed.

Example extract_json_samples :
  _extract_json (txt "Sure:" ++ newline ++ txt "```json" ++ newline ++ txt "{a: [1, 2]}"
                 ++ newline ++ txt "```" ++ newline ++ txt "Done ``` x") = txt "{a: [1, 2]}"
  /\ _extract_json (txt "x ```jsonny``` y") = txt "ny"
  /\ _extract_json (txt "a } {k: [1]} ] b") = txt "{k: [1]}"
  /\ _extract_json (txt "say [1, {2] } ok") = txt "[1, {2]"
  /\ _extract_json (txt "``` ") = txt "```"
  /\ _extract_json (txt "{ [1] ") = txt "[1]"
  /\ _extract_json (txt "```" ++ newline ++ newline ++ txt "```[1]") = [].
Proof. repeat split; vm_compute; reflexivity. Qed.

Example extract_timestamp_samples :
  extract_timestamp_from_folder (txt "Algebra-20240229-235959") = Some (txt "2024-02-29T23:59:59")
  /\ extract_timestamp_from_folder (txt "X-20230229-120000") = None
  /\ extract_timestamp_from_folder (txt "123456789-123456-1") = None
  /\ extract_timestamp_from_folder (txt "a-2024010-000000") = None
  /\ extract_timestamp_from_folder (txt "Y-00010101-000000") = Some (txt "0001-01-01T00:00:00")
  /\ extract_timestamp_from_folder (txt "Z-20241301-000000 20240101-000000") = None
  /\ extract_timestamp_from_folder (txt "Z-20240101-000060") = None
  /\ extract_timestamp_from_folder (txt "Z-20240101-240000") = None.
Proof. repeat split; vm_compute; reflexivity. Qed.

Example parse_markdown_frontmatter_samples :
  parse_markdown_frontmatter (fun s => Some (YStr s))
    (txt "---" ++ newline ++ txt "title: T" ++ newline ++ txt "---" ++ newline ++ newline
     ++ txt "Body" ++ newline ++ txt "---" ++ newline ++ txt "more")
  = (YStr (txt "title: T"), newline ++ txt "Body" ++ newline ++ txt "---" ++ newline ++ txt "more")
  /\ parse_markdown_frontmatter (fun s => Some (YStr s))
       (txt "---" ++ newline ++ newline ++ txt "---" ++ newline) = (YStr [], [])
  /\ parse_markdown_frontmatter (fun s => Some (YStr s))
       (txt "---" ++ newline ++ txt "---" ++ newline ++ txt "x")
     = (YMap [], txt "---" ++ newline ++ txt "---" ++ newline ++ txt "x")
  /\ parse_markdown_frontmatter (fun s => Some (YStr s))
       (txt "---" ++ newline ++ txt "a" ++ newline ++ txt "---")
     = (YMap [], txt "---" ++ newline ++ txt "a" ++ newline ++ txt "---").
Proof. repeat split; vm_compute; reflexivity. Qed.

Example send_request_samples :
  send_request (fun n => if (n <? 2)%nat then ClientError (txt "reset") else Response 200 (txt "{}"))
  = (MkClientLog 3 [Backoff 1; Backoff 2] 1, Ok (txt "{}"))
  /\ send_request (fun _ => Response 404 (txt "no"))
     = (MkClientLog 1 [] 0, Raise (txt "API request failed with status 404: no"))
  /\ fst (send_request (fun _ => Response 429 [])) 
     = MkClientLog 6 [RateLimitWait; RateLimitWait; RateLimitWait; RateLimitWait;
                      RateLimitWait; RateLimitWait] 0.
Proof. repeat split; vm_compute; reflexivity. Qed.

(** ** The matcher on the patterns of the sources *)

Section MatcherFacts.
Context {A : Type}.
Implicit Types (k : text -> groups -> option A) (p : ascii -> bool).

Lemma run_star r s g k : run (Star r) s g k = star_loop r k (length s) s g.
Proof. reflexivity. Qed.

Lemma run_star_lazy r s g k : run (StarLazy r) s g k = lazy_loop r k (length s) s g.
Proof. reflexivity. Qed.

Lemma star_loop_class p k n s g :
  (length s <= n)%nat -> star_loop (Class p) k n s g = greedy p s g k.
Proof.
  revert s. induction n as [|n IH]; intros s Hn.
  - destruct s; [reflexivity|simpl in Hn; lia].
  - destruct s as [|c t]; [reflexivity|].
    simpl. destruct (p c); [|reflexivity].
    rewrite (proj2 (Nat.ltb_lt _ _)) by lia.
    simpl in Hn. fold (star_loop (Class p) k). rewrite IH by lia. reflexivity.
Qed.

Lemma run_star_class p s g k : run (Star (Class p)) s g k = greedy p s g k.
Proof. rewrite run_star. by apply star_loop_class. Qed.

Lemma run_star_chr c s g k :
  run (Star (Chr c)) s g k = greedy (fun x => Ascii.eqb x c) s g k.
Proof. rewrite <- run_star_class. reflexivity. Qed.

Lemma lazy_loop_class p k n s g :
  (length s <= n)%nat -> lazy_loop (Class p) k n s g = lazy p s g k.
Proof.
  revert s. induction n as [|n IH]; intros s Hn.
  - destruct s; [simpl; by destruct (k [] g)|simpl in Hn; lia].
  - destruct s as [|c t]; simpl.
    + by destruct (k [] g).
    + destruct (k (c :: t) g); [reflexivity|].
      destruct (p c); [|reflexivity].
      rewrite (proj2 (Nat.ltb_lt _ _)) by lia.
      simpl in Hn. fold (lazy_loop (Class p) k). rewrite IH by lia. reflexivity.
Qed.

Lemma run_star_lazy_class p s g k : run (StarLazy (Class p)) s g k = lazy p s g k.
Proof. rewrite run_star_lazy. by apply lazy_loop_class. Qed.

Lemma run_seq r1 r2 s g k :
  run (Seq r1 r2) s g k = run r1 s g (fun s' g' => run r2 s' g' k).
Proof. reflexivity. Qed.

Lemma run_chr c s g k :
  run (Chr c) s g k =
  match s with x :: t => if Ascii.eqb x c then k t g else None | [] => None end.
Proof. reflexivity. Qed.

Lemma run_group i r s g k :
  run (Group i r) s g k
  = run r s g (fun s' g' => k s' ((i, take (length s - length s') s) :: g')).
Proof. reflexivity. Qed.



Lemma run_lit w s g k :
  run (Lit w) s g k = if starts_with w s then k (drop (length w) s) g else None.
Proof.
  revert s. induction w as [|a w IH]; intros s; [reflexivity|].
  destruct s as [|b s]; [reflexivity|]. simpl.
  rewrite (Ascii.eqb_sym b a). destruct (Ascii.eqb a b); [apply IH|reflexivity].
Qed.


(** When the continuation accepts the text after the longest run, that is
    the result. *)
Lemma greedy_first p s g k v :
  k (drop_while p s) g = Some v -> greedy p s g k = Some v.
Proof.
  induction s as [|c t IH]; [done|].
  simpl. destruct (p c); [|done]. intros H. by rewrite (IH H).
Qed.

End MatcherFacts.

Lemma Forall_drop_while p s : Forall (fun c => p c = true) (take (length s - length (drop_while p s)) s).
Proof.
  induction s as [|c t IH]; [constructor|].
  simpl. destruct (p c) eqn:E.
  - assert (length (drop_while p t) <= length t)%nat.
    { clear. induction t; simpl; [lia|]. destruct (p a); simpl; lia. }
    replace (S (length t) - length (drop_while p t))%nat
      with (S (length t - length (drop_while p t))) by lia.
    simpl. constructor; auto.
  - simpl. rewrite Nat.sub_diag. constructor.
Qed.

Lemma re_sub_cons r repl c t :
  re_sub r repl (c :: t) =
  match match_at r (c :: t) with
  | Some (_, rest) =>
      if decide (length rest < length (c :: t))%nat
      then repl ++ re_sub r repl rest
      else c :: re_sub r repl t
  | None => c :: re_sub r repl t
  end.
Proof.
  simp re_sub. destruct (match_at r (c :: t)) as [[g rest]|]; simpl; [|reflexivity].
  destruct (decide _); reflexivity.
Qed.

Lemma match_at_class p c t :
  snd <$> match_at (Class p) (c :: t) = if p c then Some t else None.
Proof. unfold match_at. simpl. destruct (p c); reflexivity. Qed.

Lemma re_sub_class p u s :
  re_sub (Class p) [u] s = (fun c => if p c then u else c) <$> s.
Proof.
  induction s as [|c t IH]; [reflexivity|].
  rewrite re_sub_cons. pose proof (match_at_class p c t) as H.
  destruct (match_at (Class p) (c :: t)) as [[g rest]|]; simpl in *.
  - destruct (p c); [|discriminate]. injection H as ->.
    destruct (decide _) as [_|n]; [|simpl in n; lia]. simpl. by rewrite IH.
  - destruct (p c); [discriminate|]. by rewrite IH.
Qed.

Lemma match_at_underscores s :
  snd <$> match_at underscores s =
  match s with
  | c1 :: c2 :: t => if is_us c1 && is_us c2 then Some (drop_while is_us t) else None
  | _ => None
  end.
Proof.
  unfold match_at, underscores, Plus.
  destruct s as [|c1 [|c2 t]]; try reflexivity.
  - simpl. destruct (Ascii.eqb c1 "_"); reflexivity.
  - rewrite run_group, run_seq, run_chr. unfold is_us.
    destruct (Ascii.eqb c1 "_"); [|reflexivity].
    rewrite run_seq, run_chr.
    destruct (Ascii.eqb c2 "_"); [|reflexivity]. cbn [andb].
    rewrite run_star_chr.
    erewrite greedy_first; [|reflexivity]. reflexivity.
Qed.

(** What [re.sub] with [__+] does: a run of two or more underscores becomes
    one underscore. *)
Lemma re_sub_underscores_cons c t :
  re_sub underscores (txt "_") (c :: t) =
  match t with
  | c2 :: t' =>
      if is_us c && is_us c2
      then "_"%char :: re_sub underscores (txt "_") (drop_while is_us t')
      else c :: re_sub underscores (txt "_") t
  | [] => [c]
  end.
Proof.
  rewrite re_sub_cons. pose proof (match_at_underscores (c :: t)) as H.
  destruct (match_at underscores (c :: t)) as [[g rest]|]; simpl in H.
  - destruct t as [|c2 t']; [discriminate|].
    destruct (is_us c && is_us c2); [|discriminate]. injection H as ->.
    destruct (decide _) as [_|n]; [reflexivity|]. exfalso. apply n. simpl.
    clear. induction t' as [|? ? IH]; simpl; [lia|]. destruct (is_us a); simpl; lia.
  - destruct t as [|c2 t']; [reflexivity|].
    destruct (is_us c && is_us c2); [discriminate|]. reflexivity.
Qed.

Lemma find_sub_suffix w s : find_sub w s = find_suffix (starts_with w) s.
Proof. induction s as [|c t IH]; simpl; [done|]. by rewrite IH. Qed.

Lemma find_suffix_Some test s i :
  find_suffix test s = Some i ->
  (i <= length s)%nat /\ test (drop i s) = true
  /\ forall j, (j < i)%nat -> test (drop j s) = false.
Proof.
  revert i. induction s as [|c t IH]; intros i; simpl.
  - destruct (test []) eqn:E; [|done]. intros [= <-]. split; [done|]. split; [done|]. lia.
  - destruct (test (c :: t)) eqn:E.
    + intros [= <-]. split; [lia|]. split; [done|]. lia.
    + destruct (find_suffix test t) as [i'|]; [|done]. intros [= <-].
      destruct (IH i' eq_refl) as (H1 & H2 & H3). split; [lia|]. split; [done|].
      intros [|j] Hj; [done|]. apply H3. lia.
Qed.



Section LazyFacts.
Context {A : Type}.

(** Lazy repetition of any character in front of a continuation that
    either rejects or accepts the rest outright. *)
Lemma lazy_any_find (test : text -> bool) (F : text -> groups -> A) p s g :
  (forall c, p c = true) ->
  lazy p s g (fun s' g' => if test s' then Some (F s' g') else None)
  = (fun i => F (drop i s) g) <$> find_suffix test s.
Proof.
  intros Hp. induction s as [|c t IH]; simpl.
  - by destruct (test []).
  - destruct (test (c :: t)); [done|]. rewrite Hp, IH.
    by destruct (find_suffix test t).
Qed.

End LazyFacts.

Lemma drop_while_all p (s : text) : (forall c, p c = true) -> drop_while p s = [].
Proof. intros Hp. induction s as [|c t IH]; simpl; [done|]. by rewrite Hp. Qed.

Lemma lazy_ext {A} p s g (k k' : text -> groups -> option A) :
  (forall s' g', k s' g' = k' s' g') -> lazy p s g k = lazy p s g k'.
Proof.
  intros H. induction s as [|c t IH]; simpl; rewrite H; [done|].
  destruct (k' (c :: t) g); [done|]. by rewrite IH.
Qed.


(** A greedy final group of any characters takes the rest of the text. *)
Lemma run_group_rest {A} i s g (k : text -> groups -> option A) v :
  k [] ((i, s) :: g) = Some v ->
  run (Group i (Star (Class any_char))) s g k = Some v.
Proof.
  intros Hk. rewrite run_group, run_star_class.
  apply greedy_first.
  rewrite drop_while_all by done. simpl. by rewrite Nat.sub_0_r, take_ge.
Qed.

(** What [re.match] finds in a text that starts with the line [---]. *)
Lemma frontmatter_match s1 :
  re_match frontmatter_re (opening ++ s1)
  = (fun i => [(0%nat, opening ++ s1); (2%nat, drop (i + length rule_line) s1);
               (1%nat, take i s1)])
    <$> find_sub rule_line s1.
Proof.
  unfold re_match, match_at, frontmatter_re. fold opening. change (newline ++ opening) with rule_line.
  rewrite run_group, run_seq, run_lit.
  assert (starts_with opening (opening ++ s1) = true) as -> by reflexivity.
  change (drop (length opening) (opening ++ s1)) with s1.
  rewrite run_seq, run_group, run_star_lazy_class.
  rewrite (lazy_ext _ _ _ _
             (fun s' g' => if starts_with rule_line s'
                           then Some ([(0%nat, opening ++ s1);
                                       (2%nat, drop (length rule_line) s');
                                       (1%nat, take (length s1 - length s') s1)] ++ g', [])
                           else None)).
  2:{ intros s' g'. rewrite run_seq, run_lit.
      destruct (starts_with rule_line s'); [|done].
      apply run_group_rest. simpl length at 2. by rewrite Nat.sub_0_r, take_ge. }
  rewrite (lazy_any_find (starts_with rule_line)
             (fun s' g' => ([(0%nat, opening ++ s1); (2%nat, drop (length rule_line) s');
                             (1%nat, take (length s1 - length s') s1)] ++ g', [])))
    by done.
  rewrite find_sub_suffix.
  destruct (find_suffix (starts_with rule_line) s1) as [i|] eqn:E; [|done].
  apply find_suffix_Some in E as (Hi & _ & _).
  simpl. rewrite drop_drop, length_drop.
  replace (length s1 - (length s1 - i))%nat with i by lia.
  do 4 f_equal. 
Qed.

(** ** Sanitizer and folder names *)


Lemma length_drop_while p (s : text) : (length (drop_while p s) <= length s)%nat.
Proof. induction s as [|a s IH]; simpl; [lia|]. destruct (p a); simpl; lia. Qed.

Lemma starts_us_drop_while t : starts_us (drop_while is_us t) = false.
Proof. induction t as [|a t IH]; [reflexivity|]. simpl. destruct (is_us a) eqn:E; [done|]. simpl. done. Qed.

Lemma Forall_drop_while_suffix (P : ascii -> Prop) p (s : text) :
  Forall P s -> Forall P (drop_while p s).
Proof. induction 1 as [|a s Ha Hs IH]; simpl; [constructor|]. destruct (p a); [done|by constructor]. Qed.

Lemma text_length_ind (P : text -> Prop) :
  (forall s, (forall s', (length s' < length s)%nat -> P s') -> P s) -> forall s, P s.
Proof.
  intros H s. remember (length s) as n eqn:E. revert s E.
  induction n as [n IH] using lt_wf_ind. intros s ->. apply H. intros s' Hs'. by eapply IH.
Qed.

Lemma starts_us_squeeze s : starts_us (squeeze s) = starts_us s.
Proof.
  destruct s as [|c t]; [reflexivity|]. rewrite re_sub_underscores_cons.
  destruct t as [|c2 t']; [reflexivity|].
  destruct (is_us c && is_us c2) eqn:E; [|reflexivity].
  simpl. apply andb_true_iff in E as [-> _]. reflexivity.
Qed.

Lemma squeeze_no_double s : no_double_us (squeeze s) = true.
Proof.
  induction s as [s IH] using text_length_ind.
  destruct s as [|c t]; [reflexivity|]. rewrite re_sub_underscores_cons.
  destruct t as [|c2 t']; [simpl; by rewrite andb_false_r|].
  destruct (is_us c && is_us c2) eqn:E.
  - cbn [no_double_us]. rewrite starts_us_squeeze, starts_us_drop_while, andb_false_r.
    cbn [negb andb].
    apply IH. simpl. pose proof (length_drop_while is_us t'). lia.
  - cbn [no_double_us]. rewrite starts_us_squeeze. cbn [starts_us]. rewrite E.
    cbn [negb andb].
    apply IH. simpl. lia.
Qed.

Lemma squeeze_fixed s : no_double_us s = true -> squeeze s = s.
Proof.
  induction s as [|c t IH]; [reflexivity|].
  simpl. intros [H1 H2]%andb_true_iff. rewrite re_sub_underscores_cons.
  destruct t as [|c2 t']; [reflexivity|]. simpl in H1.
  destruct (is_us c && is_us c2); [discriminate|]. by rewrite IH.
Qed.

Lemma squeeze_Forall (P : ascii -> Prop) s : P "_"%char -> Forall P s -> Forall P (squeeze s).
Proof.
  intros Hu. induction s as [s IH] using text_length_ind. intros Hs.
  destruct s as [|c t]; [constructor|]. rewrite re_sub_underscores_cons.
  destruct t as [|c2 t']; [done|].
  apply Forall_cons in Hs as [Hc Ht].
  destruct (is_us c && is_us c2).
  - constructor; [done|]. apply IH.
    + simpl. pose proof (length_drop_while is_us t'). lia.
    + apply Forall_drop_while_suffix. by apply Forall_cons in Ht as [_ ?].
  - constructor; [done|]. apply IH; [simpl; lia|done].
Qed.

Lemma no_double_us_take n s : no_double_us s = true -> no_double_us (take n s) = true.
Proof.
  revert n. induction s as [|c t IH]; intros n H; [by destruct n|].
  destruct n as [|n]; [reflexivity|]. simpl in *.
  apply andb_true_iff in H as [H1 H2]. rewrite (IH _ H2), andb_true_r.
  destruct (is_us c); [|reflexivity]. simpl in *.
  destruct t as [|c2 t']; [by destruct n|]. destruct n; [reflexivity|]. simpl in *. done.
Qed.



Lemma truncate_take (s : text) :
  (if (50 <? length s)%nat then take 50 s else s) = take 50 s.
Proof.
  destruct (50 <? length s)%nat eqn:E; [reflexivity|].
  apply Nat.ltb_ge in E. by rewrite take_ge.
Qed.

Lemma sanitize_filename_eq t : sanitize_filename t = take 50 (squeeze (replaced t)).
Proof. unfold sanitize_filename. apply truncate_take. Qed.

Lemma replaced_safe t : Forall (fun c => safe_char c = true) (replaced t).
Proof.
  unfold replaced. change (txt "_") with ["_"%char]. rewrite re_sub_class.
  apply Forall_fmap, Forall_forall. intros c _. simpl.
  unfold safe_char. destruct (unsafe_char c) eqn:E; [reflexivity|by rewrite E].
Qed.

Lemma replaced_fixed s : Forall (fun c => safe_char c = true) s -> replaced s = s.
Proof.
  unfold replaced. change (txt "_") with ["_"%char]. rewrite re_sub_class.
  induction 1 as [|c s Hc Hs IH]; [reflexivity|].
  simpl. unfold fmap in IH. rewrite IH. unfold safe_char in Hc.
  destruct (unsafe_char c); [discriminate|reflexivity].
Qed.

Lemma sanitize_filename_safe t : Forall (fun c => safe_char c = true) (sanitize_filename t).
Proof.
  rewrite sanitize_filename_eq. apply Forall_take, squeeze_Forall; [reflexivity|apply replaced_safe].
Qed.

(** C4, as amended. For every input string, the output of
    [sanitize_filename] contains only word characters in the sense of [\w]
    (letters and digits of any script, and the underscore), hyphens and full
    stops; it never exceeds 50 characters; and sanitizing it again yields the
    same string. *)
Theorem sanitize_filename_properties (t : text) :
  Forall (fun c => isword c || Ascii.eqb c "-" || Ascii.eqb c "." = true) (sanitize_filename t)
  /\ (length (sanitize_filename t) <= 50)%nat
  /\ sanitize_filename (sanitize_filename t) = sanitize_filename t.
Proof.
  split; [|split].
  - eapply Forall_impl; [apply sanitize_filename_safe|].
    intros c. unfold safe_char, unsafe_char. by rewrite negb_involutive.
  - rewrite sanitize_filename_eq, length_take. lia.
  - rewrite (sanitize_filename_eq (sanitize_filename t)).
    rewrite replaced_fixed by apply sanitize_filename_safe.
    rewrite squeeze_fixed.
    + apply take_ge. rewrite sanitize_filename_eq, length_take. lia.
    + rewrite sanitize_filename_eq. apply no_double_us_take, squeeze_no_double.
Qed.

(** C4 fails as stated: the letter e with an acute accent (code point 233) is
    a word character, so the sanitizer keeps it, and it lies outside
    [A-Za-z0-9_.-]. *)
Lemma sanitize_filename_keeps_e_acute :
  sanitize_filename [Sample.e_acute] = [Sample.e_acute]
  /\ ~ Forall (fun c => is_ascii_safe c = true) (sanitize_filename [Sample.e_acute]).
Proof.
  split; [reflexivity|].
  intros H. change (sanitize_filename [Sample.e_acute]) with [Sample.e_acute] in H.
  apply Forall_cons in H as [H _]. vm_compute in H. discriminate.
Qed.



Lemma escape_quotes_id t : ascii_of_nat 34 ∉ t -> escape_quotes t = t.
Proof.
  induction t as [|c t IH]; [reflexivity|].
  intros H. apply not_elem_of_cons in H as [H1 H2]. simpl.
  destruct (Ascii.eqb c (ascii_of_nat 34)) eqn:E.
  - apply Ascii.eqb_eq in E. congruence.
  - simpl. f_equal. by apply IH.
Qed.




(** ** Frontmatter *)












(** ** JSON extraction *)















Section FenceRun.
Context {A : Type} (k : text -> groups -> option A).
Hypothesis k_total : forall rest g, is_Some (k rest g).








End FenceRun.




























(** ** Progress percentage *)

Lemma percentage_ok {S} (c t : Z) (s : S) :
  exists q, percentage c t s = (s, Ok q) /\ (t <= 0 -> q = 0%Q).
Proof.
  unfold percentage. destruct (0 <? t) eqn:E.
  - unfold bind, truediv. destruct (t =? 0) eqn:E0; [lia|].
    simpl. eexists; split; [reflexivity|]. lia.
  - exists 0%Q. split; [reflexivity|done].
Qed.

Lemma percentage_2_4 {S} (s : S) : percentage 2 4 s = (s, Ok 50%Q).
Proof. reflexivity. Qed.

Lemma get_summary_ok t :
  exists sm, get_summary t = (t, Ok sm)
    /\ s_status sm = status t
    /\ error_count sm = size (errors t)
    /\ completed_subunits sm = completed_count t
    /\ total_subunits sm = total_count t
    /\ (total_count t <= 0 -> progress_percentage sm = 0%Q).
Proof.
  unfold get_summary, bind, get; simpl.
  destruct (percentage_ok (completed_count t) (total_count t) t) as (q & -> & Hq).
  simpl. eexists; split; [reflexivity|]. simpl. auto.
Qed.

(** C8. The summary of the progress tracker is always computed, without a
    division by zero: with a total of 0 the percentage is 0, and with 2 of 4
    completed it is 50. Completing a subunit always succeeds as well, and
    with a total of 0 it logs a progress of 0. *)
Theorem progress_percentage_guard :
  (forall t, exists sm, get_summary t = (t, Ok sm))
  /\ (forall t sm, get_summary t = (t, Ok sm) ->
        total_count t = 0 -> progress_percentage sm = 0%Q)
  /\ (forall t sm, get_summary t = (t, Ok sm) ->
        completed_count t = 2 -> total_count t = 4 -> progress_percentage sm = 50%Q)
  /\ (forall subunit_id t, exists t', complete_subunit_content subunit_id t = (t', Ok tt))
  /\ (forall subunit_id t t',
        complete_subunit_content subunit_id t = (t', Ok tt) ->
        total_count t = 0 -> progress_entry subunit_id 0 ∈ logs t').
Proof.
  split; [|split; [|split; [|split]]].
  - intros t. destruct (get_summary_ok t) as (sm & H & _). eauto.
  - intros t sm H Ht. destruct (get_summary_ok t) as (sm' & H' & _ & _ & _ & _ & Hz).
    rewrite H in H'. injection H' as ->. apply Hz. lia.
  - intros t sm H Hc Ht. revert H. unfold get_summary, bind, get; simpl.
    rewrite Hc, Ht. rewrite percentage_2_4. simpl. intros [= <-]. reflexivity.
  - intros id t. unfold complete_subunit_content, bind, get, modify, log; simpl.
    match goal with |- context [percentage ?c ?n ?s] =>
      destruct (percentage_ok c n s) as (q & -> & _) end.
    simpl. destruct (_ =? _); simpl; eauto.
  - intros id t t'. unfold complete_subunit_content, bind, get, modify, log; simpl.
    intros H Ht. revert H.
    match goal with |- context [percentage ?c ?n ?s] =>
      destruct (percentage_ok c n s) as (q & -> & Hq) end.
    simpl in Hq. rewrite Hq by lia.
    simpl. destruct (_ =? _); simpl; intros [= <-]; simpl;
      unfold progress_entry; set_solver.
Qed.

Lemma progress_percentage_guard_witness :
  exists sm, get_summary Sample.half_done = (Sample.half_done, Ok sm)
    /\ progress_percentage sm = 50%Q.
Proof.
  eexists. split; [reflexivity|].
  apply (proj1 (proj2 (proj2 progress_percentage_guard)) Sample.half_done); reflexivity.
Defined.

(** ** Retry ceiling and course listing *)

Lemma retry_loop_posts server retry_count l :
  (posts (fst (retry_loop server retry_count l))
   <= posts l + Z.to_nat (MAX_RETRIES + 1 - retry_count))%nat.
Proof.
  funelim (retry_loop server retry_count l); simpl in *; unfold MAX_RETRIES in *; try lia.
Qed.

Lemma send_request_posts server : (posts (fst (send_request server)) <= 6)%nat.
Proof.
  unfold send_request.
  pose proof (retry_loop_posts server 0 (MkClientLog 0 [] 0)) as H.
  change (Z.to_nat (MAX_RETRIES + 1 - 0)) with 6%nat in H. simpl in H. lia.
Qed.

(** C5. When every attempt receives a response with status 500,
    [send_request] posts exactly 6 times (the first attempt and 5 retries),
    pausing after each, and then raises the failure "Failed after 5
    retries". *)
Theorem retry_ceiling (server : nat -> post_result) :
  (forall n, exists body, server n = Response 500 body) ->
  send_request server
  = (MkClientLog 6 [Backoff 1; Backoff 2; Backoff 4; Backoff 8; Backoff 16; Backoff 32] 0,
     Raise (txt "Failed after 5 retries")).
Proof.
  intros H. unfold send_request.
  repeat (rewrite retry_loop_equation_1; simpl;
    match goal with |- context [server ?n] => destruct (H n) as [? ->] end; simpl).
  rewrite retry_loop_equation_1. reflexivity.
Qed.

Lemma retry_ceiling_witness :
  fst (send_request (fun _ => Response 500 (txt "Internal Server Error"))) 
  = MkClientLog 6 [Backoff 1; Backoff 2; Backoff 4; Backoff 8; Backoff 16; Backoff 32] 0.
Proof.
  rewrite (retry_ceiling (fun _ => Response 500 (txt "Internal Server Error"))).
  - reflexivity.
  - intros n. eexists. reflexivity.
Defined.

Lemma insert_flagged_front {A K} (lt : K -> K -> bool) (flag : A -> bool) (k : A -> K) x l :
  (forall a b, flag a = true -> flag b = true -> lt (k a) (k b) = false) ->
  flag x = true ->
  Py.insert_sorted (Py.flagged_lt lt) (fun a => (flag a, k a)) true x l = x :: l.
Proof.
  intros Hirr Hx. destruct l as [|y l]; [reflexivity|].
  cbn [Py.insert_sorted].
  assert (Py.precedes (Py.flagged_lt lt) (fun a => (flag a, k a)) true y x = false) as ->;
    [|reflexivity].
  unfold Py.precedes, Py.flagged_lt. rewrite Hx.
  destruct (flag y) eqn:Hy; [|reflexivity].
  by rewrite Hirr.
Qed.

Lemma insert_unflagged_skip {A K} (lt : K -> K -> bool) (flag : A -> bool) (k : A -> K) x l1 l2 :
  Forall (fun a => flag a = true) l1 ->
  flag x = false ->
  Py.insert_sorted (Py.flagged_lt lt) (fun a => (flag a, k a)) true x (l1 ++ l2)
  = l1 ++ Py.insert_sorted (Py.flagged_lt lt) (fun a => (flag a, k a)) true x l2.
Proof.
  intros Hl Hx. induction Hl as [|y l1 Hy _ IH]; [reflexivity|].
  cbn [Py.insert_sorted app].
  assert (Py.precedes (Py.flagged_lt lt) (fun a => (flag a, k a)) true y x = true) as ->
    by (unfold Py.precedes, Py.flagged_lt; by rewrite Hx, Hy).
  by rewrite IH.
Qed.

Lemma sort_flagged_first {A K} (lt : K -> K -> bool) (flag : A -> bool) (k : A -> K) l :
  (forall a b, flag a = true -> flag b = true -> lt (k a) (k b) = false) ->
  Py.sort (Py.flagged_lt lt) (fun a => (flag a, k a)) true l
  = filter (fun a => flag a = true) l
    ++ Py.sort (Py.flagged_lt lt) (fun a => (flag a, k a)) true
         (filter (fun a => flag a = false) l).
Proof.
  intros Hirr. induction l as [|x l IH]; [reflexivity|].
  change (Py.sort (Py.flagged_lt lt) (fun a => (flag a, k a)) true (x :: l))
    with (Py.insert_sorted (Py.flagged_lt lt) (fun a => (flag a, k a)) true x
            (Py.sort (Py.flagged_lt lt) (fun a => (flag a, k a)) true l)).
  rewrite IH, !filter_cons. destruct (flag x) eqn:Hx.
  - rewrite decide_True by done. rewrite decide_False by done.
    by apply insert_flagged_front.
  - rewrite decide_False by done. rewrite decide_True by done.
    apply insert_unflagged_skip; [|done].
    apply Forall_forall. intros a Ha. by apply list_elem_of_filter in Ha as [Ha _].
Qed.

Lemma text_ltb_nil : text_ltb [] [] = false.
Proof. reflexivity. Qed.

Lemma get_courses_eq fs listing :
  get_courses fs listing
  = filter (fun c => ci_timestamp c = None) (get_course_info fs <$> listing)
    ++ Py.sort (Py.flagged_lt text_ltb) sort_key true
         (filter (fun c => ci_timestamp c ≠ None) (get_course_info fs <$> listing)).
Proof.
  unfold get_courses. cbv zeta.
  set (flag := fun c : course_info => bool_decide (ci_timestamp c = None)).
  set (k := fun c : course_info =>
              match ci_timestamp c with Some (a :: t) => a :: t | _ => [] end).
  change sort_key with (fun a => (flag a, k a)).
  rewrite (sort_flagged_first text_ltb flag k).
  - f_equal; [|f_equal]; apply list_filter_iff; intros c; unfold flag.
    + by rewrite bool_decide_eq_true.
    + by rewrite bool_decide_eq_false.
  - intros a b Ha Hb. unfold flag, k in *.
    apply bool_decide_eq_true in Ha, Hb. by rewrite Ha, Hb.
Qed.

Lemma scan_courses_eq fs listing :
  _scan_courses fs listing
  = filter (fun c => sc_timestamp c = None) (scan_folder fs <$> listing)
    ++ Py.sort (Py.flagged_lt datetime_ltb) scan_key true
         (filter (fun c => sc_timestamp c ≠ None) (scan_folder fs <$> listing)).
Proof.
  unfold _scan_courses. cbv zeta.
  set (flag := fun c : scanned_course => bool_decide (sc_timestamp c = None)).
  set (k := fun c : scanned_course =>
              match sc_timestamp c with Some t => t | None => datetime_max end).
  change scan_key with (fun a => (flag a, k a)).
  rewrite (sort_flagged_first datetime_ltb flag k).
  - f_equal; [|f_equal]; apply list_filter_iff; intros c; unfold flag.
    + by rewrite bool_decide_eq_true.
    + by rewrite bool_decide_eq_false.
  - intros a b Ha Hb. unfold flag, k in *.
    apply bool_decide_eq_true in Ha, Hb. by rewrite Ha, Hb.
Qed.

(** C1, as the code behaves. For every listing of course folders, [GET
    /courses] and the viewer's course scan return first every folder without
    a parseable timestamp, in listing order, and after them the folders with
    a timestamp, sorted descending. In particular, for folders A (timestamp
    20240101-000000), B (no timestamp) and C (timestamp 20240601-000000) the
    order is B, C, A, and not C, A, B. *)
Theorem listing_puts_untimestamped_first (fs : gmap text file) :
  (forall listing,
     get_courses fs listing
     = filter (fun c => ci_timestamp c = None) (get_course_info fs <$> listing)
       ++ Py.sort (Py.flagged_lt text_ltb) sort_key true
            (filter (fun c => ci_timestamp c ≠ None) (get_course_info fs <$> listing)))
  /\ (forall listing,
        _scan_courses fs listing
        = filter (fun c => sc_timestamp c = None) (scan_folder fs <$> listing)
          ++ Py.sort (Py.flagged_lt datetime_ltb) scan_key true
               (filter (fun c => sc_timestamp c ≠ None) (scan_folder fs <$> listing)))
  /\ (ci_timestamp <$> (get_course_info fs <$> [Sample.folder_A; Sample.folder_B; Sample.folder_C]))
     = [Some (txt "2024-01-01T00:00:00"); None; Some (txt "2024-06-01T00:00:00")]
  /\ (ci_folder <$> get_courses fs [Sample.folder_A; Sample.folder_B; Sample.folder_C])
     = [Sample.folder_B; Sample.folder_C; Sample.folder_A]
  /\ (sc_folder <$> _scan_courses fs [Sample.folder_A; Sample.folder_B; Sample.folder_C])
     = [Sample.folder_B; Sample.folder_C; Sample.folder_A]
  /\ (ci_folder <$> get_courses fs [Sample.folder_A; Sample.folder_B; Sample.folder_C])
     ≠ [Sample.folder_C; Sample.folder_A; Sample.folder_B].
Proof.
  split; [apply get_courses_eq|split; [apply scan_courses_eq|]].
  split; [reflexivity|split; [reflexivity|split; [reflexivity|]]].
  change (ci_folder <$> get_courses fs [Sample.folder_A; Sample.folder_B; Sample.folder_C])
    with [Sample.folder_B; Sample.folder_C; Sample.folder_A].
  vm_compute. discriminate.
Qed.

(** ** The run of the pipeline *)

Section PipelineFacts.

Local Arguments txt : simpl never.







































End PipelineFacts.
